(** * Directions hooks: keyword router and project-state extractor

    A shallow embedding of [docs/scripts/doc-suggester.py] and
    [docs/scripts/session-start.py], with the properties their
    specification states about them.

    Text is modelled by [string]: a Python [str] restricted to ASCII.  On
    such text [str.lower], [str.strip], [str.isspace] and the regular
    expression class [\w] behave exactly as the definitions of module [Py]
    below; code points above 127 are outside the model. *)

From Stdlib Require Import String Ascii List Bool Arith Lia.
From Stdlib Require Import OrderedTypeEx.
Import ListNotations.

Local Open Scope list_scope.
Local Open Scope string_scope.

(** ** Python exceptions and the partiality monad *)

Inductive exn : Type :=
| FileNotFoundError
| PermissionError
| IsADirectoryError
| UnicodeDecodeError
| IndexError.

Inductive result (A : Type) : Type :=
| Ok (a : A)
| Raise (e : exn).

Arguments Ok {A} a.
Arguments Raise {A} e.

Definition bind {A B : Type} (m : result A) (k : A -> result B) : result B :=
  match m with
  | Ok a => k a
  | Raise e => Raise e
  end.

Notation "x <- m ;; k" := (bind m (fun x => k))
  (at level 61, m at next level, right associativity).


(** ** The string methods the scripts call *)

Module Py.

Definition code (c : ascii) : nat := nat_of_ascii c.

Definition between (lo hi : nat) (c : ascii) : bool :=
  Nat.leb lo (code c) && Nat.leb (code c) hi.

Definition isupper (c : ascii) : bool := between 65 90 c.
Definition islower (c : ascii) : bool := between 97 122 c.
Definition isdigit (c : ascii) : bool := between 48 57 c.

(** [str.isspace] on ASCII: tab, line feed, vertical tab, form feed,
    carriage return, the four separators 28..31 and the space. *)
Definition isspace (c : ascii) : bool :=
  between 9 13 c || between 28 32 c.

(** The class [\w] of [re] on ASCII text. *)
Definition isword (c : ascii) : bool :=
  isupper c || islower c || isdigit c || Nat.eqb (code c) 95.

Definition lower_char (c : ascii) : ascii :=
  if isupper c then ascii_of_nat (code c + 32) else c.

(** [s.lower()] *)
Fixpoint lower (s : string) : string :=
  match s with
  | EmptyString => EmptyString
  | String c s' => String (lower_char c) (lower s')
  end.

(** [s.startswith(p)] *)
Definition startswith (p s : string) : bool := prefix p s.

(** [needle in hay] *)
Fixpoint contains (needle hay : string) : bool :=
  if prefix needle hay then true
  else match hay with
       | EmptyString => false
       | String _ hay' => contains needle hay'
       end.

(** [s.endswith(suffix)] *)
Fixpoint endswith (suffix s : string) : bool :=
  if String.eqb suffix s then true
  else match s with
       | EmptyString => false
       | String _ s' => endswith suffix s'
       end.

(** Membership of a character in the argument of [strip(chars)]. *)
Fixpoint mem (c : ascii) (chars : string) : bool :=
  match chars with
  | EmptyString => false
  | String d chars' => Ascii.eqb c d || mem c chars'
  end.

Fixpoint lstrip_by (p : ascii -> bool) (s : string) : string :=
  match s with
  | EmptyString => EmptyString
  | String c s' => if p c then lstrip_by p s' else s
  end.

Fixpoint rstrip_by (p : ascii -> bool) (s : string) : string :=
  match s with
  | EmptyString => EmptyString
  | String c s' =>
      match rstrip_by p s' with
      | EmptyString => if p c then EmptyString else String c EmptyString
      | r => String c r
      end
  end.

Definition strip_by (p : ascii -> bool) (s : string) : string :=
  rstrip_by p (lstrip_by p s).

(** [s.strip()], [s.strip(chars)] and [s.lstrip(chars)] *)
Definition strip (s : string) : string := strip_by isspace s.
Definition strip_chars (chars s : string) : string :=
  strip_by (fun c => mem c chars) s.
Definition lstrip_chars (chars s : string) : string :=
  lstrip_by (fun c => mem c chars) s.

(** [s.split(sep)] for a one-character separator: never empty. *)
Fixpoint split (sep : ascii) (s : string) : list string :=
  match s with
  | EmptyString => [EmptyString]
  | String c s' =>
      if Ascii.eqb c sep then EmptyString :: split sep s'
      else match split sep s' with
           | [] => [String c EmptyString]
           | h :: t => String c h :: t
           end
  end.

(** [s.split(sep, 1)]: one or two pieces, cut at the first separator. *)
Fixpoint split1 (sep : ascii) (s : string) : list string :=
  match s with
  | EmptyString => [EmptyString]
  | String c s' =>
      if Ascii.eqb c sep then [EmptyString; s']
      else match split1 sep s' with
           | [] => [String c EmptyString]
           | h :: t => String c h :: t
           end
  end.

(** [l[i]], raising [IndexError] out of range. *)
Definition item {A : Type} (l : list A) (i : nat) : result A :=
  match nth_error l i with
  | Some a => Ok a
  | None => Raise IndexError
  end.

(** [s[:n]] *)
Definition take (n : nat) (s : string) : string := substring 0 n s.

(** [sep.join(parts)] *)
Definition join (sep : string) (parts : list string) : string :=
  String.concat sep parts.

(** Truth value of an optional string and of a string. *)
Definition truthy (o : option string) : bool :=
  match o with
  | Some (String _ _) => true
  | _ => false
  end.

(** *** [re.search(r'\b' + re.escape(kw) + r'\b', text)]

    The escaped keyword matches itself literally; [\b] holds between two
    neighbouring positions exactly one of which carries a word character,
    the two ends of the text counting as non-word. *)

Definition isword_at (c : option ascii) : bool :=
  match c with
  | Some c => isword c
  | None => false
  end.

Definition boundary (left right : option ascii) : bool :=
  xorb (isword_at left) (isword_at right).

Definition first_char (s : string) : option ascii := get 0 s.

Fixpoint last_char (prev : option ascii) (s : string) : option ascii :=
  match s with
  | EmptyString => prev
  | String c s' => last_char (Some c) s'
  end.

Fixpoint drop (n : nat) (s : string) : string :=
  match n, s with
  | O, _ => s
  | S n', String _ s' => drop n' s'
  | S _, EmptyString => EmptyString
  end.

(** The pattern matches at the current position: [prev] is the character
    just before it, [rest] the text from it on. *)
Definition word_match_here (kw : string) (prev : option ascii)
           (rest : string) : bool :=
  boundary prev (first_char rest)
  && prefix kw rest
  && boundary (last_char prev kw) (first_char (drop (String.length kw) rest)).

Fixpoint word_search_from (kw : string) (prev : option ascii)
         (rest : string) : bool :=
  if word_match_here kw prev rest then true
  else match rest with
       | EmptyString => false
       | String c rest' => word_search_from kw (Some c) rest'
       end.

Definition word_search (kw text : string) : bool :=
  word_search_from kw None text.

End Py.

(** ** [doc-suggester.py]: the keyword router *)

Record Mapping : Type := mkMapping {
  keywords : list string;
  doc : string;
  description : string
}.

Definition coordinate_rule : Mapping :=
  mkMapping ["coordinate"; "position"; "frame"; "bounds"; "cgpoint";
             "cgrect"; "origin"; "anchor"]
            "21_coordinate-systems.md"
            "coordinate systems and positioning".

Definition swiftui_rule : Mapping :=
  mkMapping ["not updating"; "not refreshing"; "state not changing";
             "observableobject"; "@state"; "@binding"; "published";
             "view update"; "refresh view"; "redraw"]
            "20_swiftui-gotchas.md"
            "SwiftUI state and view updates".

Definition macos_rule : Mapping :=
  mkMapping ["sandbox"; "bookmark"; "entitlement"; "security-scoped";
             "app sandbox"; "file access"; "permission"]
            "22_macos-platform.md"
            "macOS sandboxing and entitlements".

Definition debugging_rule : Mapping :=
  mkMapping ["debug"; "bug"; "broken"; "not working"; "crash"; "error";
             "issue"; "problem"]
            "31_debugging.md"
            "debugging strategies".

Definition production_rule : Mapping :=
  mkMapping ["ship"; "release"; "production"; "deploy"; "publish";
             "app store"; "testflight"]
            "30_production-checklist.md"
            "production readiness".

Definition typography_rule : Mapping :=
  mkMapping ["typography"; "font"; "text style"; "sf pro"; "dynamic type"]
            "40_typography.md"
            "typography guidelines".

Definition git_rule : Mapping :=
  mkMapping ["git"; "commit"; "branch"; "merge"; "pull request"; "pr"]
            "32_git-workflow.md"
            "git workflow".

Definition architecture_rule : Mapping :=
  mkMapping ["architecture"; "design decision"; "pattern"; "structure";
             "approach"]
            "04_architecture-decisions.md"
            "architecture decision records".

Definition new_project_rule : Mapping :=
  mkMapping ["new project"; "start"; "scaffold"; "setup"; "initialize"]
            "10_new-project.md"
            "new project setup".

Definition planning_rule : Mapping :=
  mkMapping ["plan"; "planning"; "roadmap"; "scope"; "estimate"]
            "51_planning-patterns.md"
            "planning patterns".

Definition web_rule : Mapping :=
  mkMapping ["web"; "html"; "css"; "javascript"; "browser"; "responsive"]
            "24_web-gotchas.md"
            "web development gotchas".

Definition apple_ui_rule : Mapping :=
  mkMapping ["button"; "menu"; "toolbar"; "sidebar"; "navigation"; "tab";
             "modal"; "sheet"]
            "41_apple-ui.md"
            "Apple UI patterns".

Definition DOC_MAPPINGS : list Mapping :=
  [coordinate_rule; swiftui_rule; macos_rule; debugging_rule;
   production_rule; typography_rule; git_rule; architecture_rule;
   new_project_rule; planning_rule; web_rule; apple_ui_rule].

(** The test of one keyword against the lowered prompt (the body of the
    inner loop). *)
Definition keyword_matches (keyword prompt_lower : string) : bool :=
  if Nat.leb (String.length keyword) 4
  then Py.word_search keyword prompt_lower
  else Py.contains keyword prompt_lower.

(** The inner loop: some keyword of the rule matches. *)
Fixpoint any_keyword_matches (kws : list string) (prompt_lower : string)
  : bool :=
  match kws with
  | [] => false
  | keyword :: kws' =>
      if keyword_matches keyword prompt_lower then true
      else any_keyword_matches kws' prompt_lower
  end.

Definition rule_matches (prompt_lower : string) (mapping : Mapping) : bool :=
  any_keyword_matches (keywords mapping) prompt_lower.

(** The outer loop over a table. *)
Fixpoint find_in (table : list Mapping) (prompt_lower : string)
  : option Mapping :=
  match table with
  | [] => None
  | mapping :: table' =>
      if rule_matches prompt_lower mapping then Some mapping
      else find_in table' prompt_lower
  end.

Definition find_matching_doc (prompt : string) : option Mapping :=
  find_in DOC_MAPPINGS (Py.lower prompt).

(** ** [session-start.py]: the project-state extractor *)

Definition LF : ascii := "010"%char.
Definition NL : string := String LF EmptyString.

Definition nonempty (s : string) : bool :=
  match s with
  | EmptyString => false
  | String _ _ => true
  end.

(** *** Phase and focus

    [extract_current_phase] and [extract_current_focus] are the same loop
    over the lines, with different literals. *)

Section FieldScan.

Variables (bold_label plain_label phrase : string).

Definition is_label_line (line : string) : bool :=
  Py.startswith bold_label line || Py.startswith plain_label line.

Definition is_phrase_line (line : string) : bool :=
  Py.contains phrase (Py.lower line).

Definition label_value (line : string) : result (option string) :=
  v <- Py.item (Py.split1 ":" line) 1 ;;
  Ok (Some (Py.strip_chars "*" (Py.strip v))).

Definition phrase_value (line : string) : result (option string) :=
  if Py.contains ":" line
  then v <- Py.item (Py.split1 ":" line) 1 ;; Ok (Some (Py.strip v))
  else Ok None.

Fixpoint scan_field (lines : list string) : result (option string) :=
  match lines with
  | [] => Ok None
  | line :: rest =>
      if is_label_line line then label_value line
      else if is_phrase_line line then phrase_value line
      else scan_field rest
  end.

End FieldScan.

Definition extract_current_phase (content : string) : result (option string) :=
  scan_field "**Phase:**" "Phase:" "current phase" (Py.split LF content).

Definition extract_current_focus (content : string) : result (option string) :=
  scan_field "**Focus:**" "Focus:" "current focus" (Py.split LF content).

(** *** Blockers *)

Definition is_trigger (line : string) : bool :=
  Py.contains "blocker" (Py.lower line) && Py.contains "#" line.

Definition is_heading (line : string) : bool := Py.startswith "#" line.

Definition is_bullet (line : string) : bool :=
  Py.startswith "-" (Py.strip line) || Py.startswith "*" (Py.strip line).

Definition bullet_text (line : string) : string :=
  Py.strip (Py.lstrip_chars "-*" (Py.strip line)).

Definition keeps (blocker : string) : bool :=
  nonempty blocker && negb (String.eqb (Py.lower blocker) "none").

(** The loop of [extract_blockers], its two variables threaded through. *)
Fixpoint blockers_loop (lines : list string) (in_blockers : bool)
         (blockers : list string) : list string :=
  match lines with
  | [] => blockers
  | line :: rest =>
      if is_trigger line then blockers_loop rest true blockers
      else if in_blockers then
        if is_heading line then blockers
        else if is_bullet line then
          let blocker := bullet_text line in
          if keeps blocker
          then blockers_loop rest true (blockers ++ [blocker])%list
          else blockers_loop rest true blockers
        else blockers_loop rest true blockers
      else blockers_loop rest false blockers
  end.

Definition extract_blockers (content : string) : list string :=
  blockers_loop (Py.split LF content) false [].

(** *** The file system the hooks read *)

Record FileSystem : Type := mkFS {
  path_exists : string -> bool;
  read_text : string -> result string;
  listdir : string -> list string
}.

(** [parent / name] *)
Definition path_join (parent name : string) : string :=
  parent ++ "/" ++ name.

Definition read_file_safely (fs : FileSystem) (path : string)
  : result (option string) :=
  match read_text fs path with
  | Ok text => Ok (Some text)
  | Raise FileNotFoundError => Ok None
  | Raise PermissionError => Ok None
  | Raise e => Raise e
  end.

(** *** The latest session log *)

(** [sorted(names, reverse=True)]: stable, descending.  The paths sorted
    by the script share their parent, so they compare as their names. *)
Fixpoint insert_desc (x : string) (l : list string) : list string :=
  match l with
  | [] => [x]
  | y :: l' => if String.ltb x y then y :: insert_desc x l' else x :: l
  end.

Fixpoint sorted_reverse (l : list string) : list string :=
  match l with
  | [] => []
  | x :: l' => insert_desc x (sorted_reverse l')
  end.

(** The names [sessions_dir.glob("*.md")] yields. *)
Definition glob_md (fs : FileSystem) (dir : string) : list string :=
  filter (Py.endswith ".md") (listdir fs dir).

Definition not_index (name : string) : bool :=
  negb (String.eqb name "_index.md").

Definition session_files (fs : FileSystem) (dir : string) : list string :=
  sorted_reverse (filter not_index (glob_md fs dir)).

Definition meaningful (line : string) : bool :=
  nonempty line && negb (Py.startswith "#" line)
  && Nat.ltb 10 (String.length line).

Definition summary_of (line : string) : string :=
  if Nat.ltb 100 (String.length line) then Py.take 100 line ++ "..."
  else line.

Fixpoint first_summary (lines : list string) : option string :=
  match lines with
  | [] => None
  | raw :: rest =>
      let line := Py.strip raw in
      if meaningful line then Some (summary_of line)
      else first_summary rest
  end.

Definition summary_of_content (content : option string) : option string :=
  match content with
  | Some (String _ _ as text) => first_summary (Py.split LF text)
  | _ => None
  end.

Definition get_latest_session (fs : FileSystem) (sessions_dir : string)
  : result (option string * option string) :=
  if negb (path_exists fs sessions_dir) then Ok (None, None)
  else
    match session_files fs sessions_dir with
    | [] => Ok (None, None)
    | latest :: _ =>
        content <- read_file_safely fs (path_join sessions_dir latest) ;;
        Ok (Some latest, summary_of_content content)
    end.

(** *** The context message *)

Record Output : Type := mkOutput { message : option string }.

Definition intro_line : string :=
  "This project uses **Directions** for documentation and workflow.".

Definition closing_line : string :=
  "Use `/status` for full details or `/log` to update the session log.".

Definition when_present (label : string) (value : option string)
  : list string :=
  match value with
  | Some (String _ _ as v) => [label ++ v]
  | _ => []
  end.

(** The list [parts] as the second half of [build_context_message] grows
    it. *)
Definition blockers_part (blockers : list string) : list string :=
  match blockers with
  | [] => []
  | _ :: _ => ["**Blockers:** " ++ Py.join ", " blockers]
  end.

Definition session_part (latest_session session_summary : option string)
  : list string :=
  match latest_session with
  | Some (String _ _ as name) =>
      ("**Last Session:** " ++ name)
      :: match session_summary with
         | Some (String _ _ as summary) => ["  _" ++ summary ++ "_"]
         | _ => []
         end
  | _ => []
  end.

Definition message_parts (phase focus : option string)
           (blockers : list string)
           (latest_session session_summary : option string) : list string :=
  ([intro_line]
   ++ when_present "**Current Phase:** " phase
   ++ when_present "**Current Focus:** " focus
   ++ blockers_part blockers
   ++ session_part latest_session session_summary
   ++ [""; closing_line])%list.

Definition extract_state (state_content : option string)
  : result (option string * option string * list string) :=
  match state_content with
  | Some (String _ _ as text) =>
      phase <- extract_current_phase text ;;
      focus <- extract_current_focus text ;;
      Ok (phase, focus, extract_blockers text)
  | _ => Ok (None, None, [])
  end.

Definition build_context_message (fs : FileSystem) (project_root : string)
  : result Output :=
  let docs_dir := path_join project_root "docs" in
  state_content <- read_file_safely fs (path_join docs_dir "PROJECT_STATE.md") ;;
  state <- extract_state state_content ;;
  session <- get_latest_session fs (path_join docs_dir "sessions") ;;
  let '(phase, focus, blockers) := state in
  let '(latest_session, session_summary) := session in
  Ok (mkOutput (Some (Py.join NL
        (message_parts phase focus blockers latest_session session_summary)))).

Definition build_non_directions_message : Output :=
  mkOutput (Some (Py.join NL
    ["What would you like to do?";
     "";
     "| Command | What it does |";
     "|---------|------------|";
     "| `/setup` | Detect project state, set up or migrate Directions |";
     "| `/status` | Check current phase, focus, blockers, last session |";
     "| `/log` | Create or update today's session log |";
     "| `/decide` | Record an architectural/design decision |";
     "| `/interview` | Run the full discovery interview |";
     "| `/learned` | Add a term to your personal glossary |";
     "| `/reorg` | Reorganize folder structure (numbered folders) |";
     "| `/update-directions` | Pull latest Directions from GitHub |";
     "";
     "Or just tell me what you're working on."])).

Definition marker_path (project_root : string) : string :=
  path_join (path_join project_root "docs") "00_base.md".

(** [main] of [session-start.py]: the object handed to [json.dumps]. *)
Definition session_start_main (fs : FileSystem) (project_root : string)
  : result Output :=
  if path_exists fs (marker_path project_root)
  then build_context_message fs project_root
  else Ok build_non_directions_message.


(** * Specification vocabulary and sample inputs *)

(** ** Router *)

(** [prompt] contains [needle] written in some casing. *)
Definition contains_ci (needle prompt : string) : Prop :=
  exists pre mid post,
    prompt = pre ++ mid ++ post /\ Py.lower mid = needle.

(** The rules the table places before the debugging rule. *)
Definition rules_before_debugging : list Mapping :=
  [coordinate_rule; swiftui_rule; macos_rule].

(** ** Phase and focus *)

Fixpoint all_chars (p : ascii -> bool) (s : string) : bool :=
  match s with
  | EmptyString => true
  | String c s' => p c && all_chars p s'
  end.







(** The bold-marked two-line document. *)
Definition C3_document : string :=
  "**Phase:** Build" ++ NL ++ "**Focus:** Auth".

(** ** Blockers *)

(** The bullet [line] contributes the value [b]. *)
Definition collected (line b : string) : Prop :=
  is_bullet line = true /\ b = bullet_text line /\
  b <> "" /\ Py.lower b <> "none".

(** What a run of section lines contributes, bullet by bullet. *)
Definition section_blockers (section : list string) : list string :=
  filter keeps (map bullet_text (filter is_bullet section)).

(** A blockers section between other sections, and one holding only
    "None". *)
Definition C7_document : string :=
  "# Status" ++ NL ++ "- unrelated" ++ NL ++ "## Blockers" ++ NL
  ++ "- API rate limits" ++ NL ++ "- none" ++ NL ++ "## Next steps" ++ NL
  ++ "- write tests".

Definition C7_document_none : string :=
  "## Blockers" ++ NL ++ "- None" ++ NL.

(** ** Session logs and file reads *)

(** [name] is a "*.md" entry of [dir] other than "_index.md". *)
Definition qualifying_log (fs : FileSystem) (dir name : string) : Prop :=
  In name (listdir fs dir) /\ Py.endswith ".md" name = true /\
  name <> "_index.md".

(** [name] is the log the selection rule designates in [dir]: a qualifying
    entry that no other qualifying entry exceeds in lexicographic order. *)
Definition latest_log (fs : FileSystem) (dir name : string) : Prop :=
  qualifying_log fs dir name /\
  forall other, qualifying_log fs dir other -> String.leb other name = true.

(** The three tests of the summary scan, on a trimmed line. *)
Definition summary_candidate (line : string) : Prop :=
  line <> "" /\ Py.startswith "#" line = false /\ 10 < String.length line.

(** [p] is the first [n] characters of [line]. *)
Definition first_chars (n : nat) (line p : string) : Prop :=
  String.length p = n /\ exists rest, line = p ++ rest.

(** [summary] is what the summary rule yields on the lines of a text. *)
Definition summary_rule (lines : list string) (summary : option string)
  : Prop :=
  ((forall x, In x lines -> ~ summary_candidate (Py.strip x)) ->
   summary = None) /\
  (forall before raw after,
      lines = (before ++ raw :: after)%list ->
      (forall x, In x before -> ~ summary_candidate (Py.strip x)) ->
      summary_candidate (Py.strip raw) ->
      (String.length (Py.strip raw) <= 100 ->
       summary = Some (Py.strip raw)) /\
      (100 < String.length (Py.strip raw) ->
       exists p, first_chars 100 (Py.strip raw) p /\
                 summary = Some (p ++ "..."))).



(** The two paths [build_context_message] reads below the project root. *)
Definition state_path (project_root : string) : string :=
  path_join (path_join project_root "docs") "PROJECT_STATE.md".

Definition sessions_path (project_root : string) : string :=
  path_join (path_join project_root "docs") "sessions".

(** A project with the marker file and nothing else. *)
Definition fs_bare : FileSystem :=
  mkFS (fun path => String.eqb path (marker_path "/project"))
       (fun _ => Raise FileNotFoundError)
       (fun _ => []).



(** The text of the newest log of [fs_logs]. *)
Definition log_text : string :=
  "# Session 2024-03-10" ++ NL ++ NL ++ "  Fixed the login flow today." ++ NL.

(** A project with two dated logs, the index and a stray text file. *)
Definition fs_logs : FileSystem :=
  mkFS (fun _ => true)
       (fun path =>
          if String.eqb path (path_join (sessions_path "/project")
                                        "2024-03-10.md")
          then Ok log_text
          else Raise PermissionError)
       (fun dir => if String.eqb dir (sessions_path "/project")
                   then ["2024-01-02.md"; "2024-03-10.md"; "_index.md";
                         "notes.txt"]
                   else []).

(** * Properties *)

(** ** Strings *)


Lemma append_empty_r (a : string) : a ++ "" = a.
Proof.
  induction a as [|x a IH]; simpl; [reflexivity | now rewrite IH].
Qed.

Lemma lower_append (a b : string) :
  Py.lower (a ++ b) = Py.lower a ++ Py.lower b.
Proof.
  induction a as [|x a IH]; simpl; [reflexivity | now rewrite IH].
Qed.

Lemma prefix_append (p s : string) : prefix p (p ++ s) = true.
Proof.
  induction p as [|x p IH]; simpl.
  - now destruct s.
  - destruct (ascii_dec x x) as [_|ne]; [exact IH | now elim ne].
Qed.

Lemma prefix_drop (p s : string) :
  prefix p s = true -> s = p ++ Py.drop (String.length p) s.
Proof.
  revert s; induction p as [|x p IH]; intros s H; simpl.
  - reflexivity.
  - destruct s as [|y s]; simpl in H; [discriminate|].
    destruct (ascii_dec x y) as [->|ne]; [|discriminate].
    simpl. f_equal. now apply IH.
Qed.

Lemma contains_prefix (needle hay : string) :
  prefix needle hay = true -> Py.contains needle hay = true.
Proof.
  intros H. destruct hay; cbn [Py.contains]; now rewrite H.
Qed.

Lemma contains_append (needle pre post : string) :
  Py.contains needle (pre ++ needle ++ post) = true.
Proof.
  induction pre as [|x pre IH]; cbn [append].
  - apply contains_prefix, prefix_append.
  - cbn [Py.contains]. rewrite IH.
    now destruct (prefix needle (String x (pre ++ needle ++ post))).
Qed.


Lemma contains_ci_lower (needle prompt : string) :
  contains_ci needle prompt -> Py.contains needle (Py.lower prompt) = true.
Proof.
  intros (pre & mid & post & -> & <-).
  rewrite !lower_append. apply contains_append.
Qed.

(** ** The router *)

Lemma any_keyword_matches_In (kws : list string) (pl kw : string) :
  In kw kws -> keyword_matches kw pl = true ->
  any_keyword_matches kws pl = true.
Proof.
  induction kws as [|k kws IH]; simpl; [tauto|].
  intros [->|Hin] Hm.
  - now rewrite Hm.
  - destruct (keyword_matches k pl); [reflexivity | now apply IH].
Qed.

Lemma find_in_app (t1 t2 : list Mapping) (pl : string) :
  find_in (t1 ++ t2)%list pl =
  match find_in t1 pl with
  | Some r => Some r
  | None => find_in t2 pl
  end.
Proof.
  induction t1 as [|m t1 IH]; simpl; [reflexivity|].
  now destruct (rule_matches pl m).
Qed.

(** The loop returns the first rule of the table, in table order, one of
    whose keywords matches. *)
Lemma find_in_first (table : list Mapping) (pl : string) :
  forall i ri,
    nth_error table i = Some ri -> rule_matches pl ri = true ->
    exists k r,
      k <= i /\ find_in table pl = Some r /\
      nth_error table k = Some r /\ rule_matches pl r = true /\
      forall k' r', k' < k -> nth_error table k' = Some r' ->
                    rule_matches pl r' = false.
Proof.
  induction table as [|m table IH]; intros i ri Hi Hm.
  - now destruct i.
  - simpl. destruct (rule_matches pl m) eqn:E.
    + exists 0, m. repeat split; auto with arith. intros k' r' Hk; lia.
    + destruct i as [|i]; simpl in Hi.
      * injection Hi as ->. congruence.
      * destruct (IH i ri Hi Hm) as (k & r & Hle & Hf & Hn & Hr & Hmin).
        exists (S k), r. repeat split; auto with arith.
        intros [|k'] r' Hk Hn'; simpl in Hn'.
        -- injection Hn' as <-. exact E.
        -- apply (Hmin k' r'); [lia | exact Hn'].
Qed.

Lemma find_in_ext (table : list Mapping) (p q : string) :
  (forall r, In r table -> rule_matches p r = rule_matches q r) ->
  find_in table p = find_in table q.
Proof.
  induction table as [|m table IH]; intros H; simpl; [reflexivity|].
  rewrite (H m (or_introl eq_refl)).
  destruct (rule_matches q m); [reflexivity|].
  apply IH. intros r Hr. apply H. now right.
Qed.

(** What a successful word-boundary search found: an occurrence of the
    keyword with a boundary on each side. *)
Lemma word_search_from_inv (kw : string) :
  forall rest prev,
    Py.word_search_from kw prev rest = true ->
    exists pre post,
      rest = pre ++ kw ++ post /\
      Py.boundary (Py.last_char prev pre) (Py.first_char (kw ++ post)) = true /\
      Py.boundary (Py.last_char prev (pre ++ kw)) (Py.first_char post) = true.
Proof.
  assert (Here : forall rest prev,
             Py.word_match_here kw prev rest = true ->
             exists post,
               rest = kw ++ post /\
               Py.boundary prev (Py.first_char (kw ++ post)) = true /\
               Py.boundary (Py.last_char prev kw) (Py.first_char post) = true).
  { intros rest prev H. unfold Py.word_match_here in H.
    apply andb_true_iff in H as [H Hr]. apply andb_true_iff in H as [Hl Hp].
    exists (Py.drop (String.length kw) rest).
    pose proof (prefix_drop _ _ Hp) as E. rewrite <- E. now repeat split. }
  induction rest as [|c rest IH]; intros prev H;
    cbn [Py.word_search_from] in H.
  - destruct (Py.word_match_here kw prev "") eqn:E; [|discriminate].
    destruct (Here _ _ E) as (post & E1 & Hl & Hr).
    exists "", post. now repeat split.
  - destruct (Py.word_match_here kw prev (String c rest)) eqn:E.
    + destruct (Here _ _ E) as (post & E1 & Hl & Hr).
      exists "", post. now repeat split.
    + destruct (IH _ H) as (pre & post & -> & Hl & Hr).
      exists (String c pre), post. now repeat split.
Qed.

Lemma debugging_rule_on_crash (pl : string) :
  Py.contains "crash" pl = true -> rule_matches pl debugging_rule = true.
Proof.
  intros H. unfold rule_matches.
  apply any_keyword_matches_In with (kw := "crash").
  - cbn. tauto.
  - exact H.
Qed.

(** C1 (as the code has it): a prompt that contains "crash" in any casing
    always gets a rule, never nothing.  It is the debugging rule
    ("31_debugging.md") whenever no keyword of the three rules placed
    before it in the table matches the prompt; when one does, the first
    such rule is returned instead. *)
Theorem C1_crash_gets_debugging_unless_earlier_rule (prompt : string) :
  contains_ci "crash" prompt ->
  (find_in rules_before_debugging (Py.lower prompt) = None ->
   find_matching_doc prompt = Some debugging_rule) /\
  (forall r, find_in rules_before_debugging (Py.lower prompt) = Some r ->
             find_matching_doc prompt = Some r) /\
  find_matching_doc prompt <> None.
Proof.
  intros H. apply contains_ci_lower in H.
  apply debugging_rule_on_crash in H.
  unfold find_matching_doc.
  change DOC_MAPPINGS
    with (rules_before_debugging
            ++ debugging_rule
            :: [production_rule; typography_rule; git_rule;
                architecture_rule; new_project_rule; planning_rule;
                web_rule; apple_ui_rule])%list.
  rewrite find_in_app. cbn [find_in]. rewrite H.
  destruct (find_in rules_before_debugging (Py.lower prompt)) as [r|].
  - repeat split; [discriminate | now intros r' [= ->] | discriminate].
  - repeat split; [discriminate | discriminate].
Qed.

Lemma C1_crash_gets_debugging_unless_earlier_rule_witness :
  contains_ci "crash" "App CRASHed!" /\
  find_matching_doc "App CRASHed!" = Some debugging_rule.
Proof.
  assert (H : contains_ci "crash" "App CRASHed!").
  { exists "App ", "CRASH", "ed!". split; reflexivity. }
  split; [exact H|].
  apply (proj1 (C1_crash_gets_debugging_unless_earlier_rule _ H)).
  reflexivity.
Defined.

(** C1 as stated fails: "crash when setting frame" contains "crash", yet
    the router answers with the coordinate-systems rule, whose keyword
    "frame" comes earlier in the table. *)
Lemma C1_counterexample :
  contains_ci "crash" "crash when setting frame" /\
  find_matching_doc "crash when setting frame" = Some coordinate_rule /\
  doc coordinate_rule <> "31_debugging.md" /\
  ~ (forall prompt, contains_ci "crash" prompt ->
                    find_matching_doc prompt = Some debugging_rule).
Proof.
  assert (H : contains_ci "crash" "crash when setting frame").
  { exists "", "crash", " when setting frame". split; reflexivity. }
  repeat split; [exact H | discriminate |].
  intros All. specialize (All _ H).
  apply (f_equal (option_map doc)) in All. vm_compute in All. discriminate.
Qed.

(** C5: when keywords of two rules of the table match a prompt, the router
    returns a rule, and that rule is the earliest one of the table with a
    matching keyword: it sits at or before the earlier of the two, and no
    rule before it matches.  The answer depends on the prompt only through
    which rules match it, not on where their keywords stand in the text. *)
Theorem C5_earliest_rule_in_table_order_wins
        (prompt : string) (i j : nat) (ri rj : Mapping) :
  i < j ->
  nth_error DOC_MAPPINGS i = Some ri ->
  nth_error DOC_MAPPINGS j = Some rj ->
  rule_matches (Py.lower prompt) ri = true ->
  rule_matches (Py.lower prompt) rj = true ->
  (exists k r,
      k <= i /\ find_matching_doc prompt = Some r /\
      nth_error DOC_MAPPINGS k = Some r /\
      rule_matches (Py.lower prompt) r = true /\
      forall k' r', k' < k -> nth_error DOC_MAPPINGS k' = Some r' ->
                    rule_matches (Py.lower prompt) r' = false) /\
  (forall prompt',
      (forall r, In r DOC_MAPPINGS ->
                 rule_matches (Py.lower prompt') r
                 = rule_matches (Py.lower prompt) r) ->
      find_matching_doc prompt' = find_matching_doc prompt).
Proof.
  intros _ Hi _ Hmi _. split.
  - exact (find_in_first DOC_MAPPINGS (Py.lower prompt) i ri Hi Hmi).
  - intros prompt' Hsame. now apply find_in_ext.
Qed.

Lemma C5_earliest_rule_in_table_order_wins_witness :
  exists k r,
    k <= 4 /\
    find_matching_doc "plan the release after the git merge" = Some r /\
    nth_error DOC_MAPPINGS k = Some r.
Proof.
  destruct (C5_earliest_rule_in_table_order_wins
              "plan the release after the git merge" 4 6
              production_rule git_rule) as [(k & r & Hk & Hf & Hn & _) _];
    [lia | reflexivity | reflexivity | reflexivity | reflexivity |].
  exists k, r. repeat split; assumption.
Defined.

Lemma last_char_append (prev : option ascii) (a b : string) :
  Py.last_char prev (a ++ b) = Py.last_char (Py.last_char prev a) b.
Proof.
  revert prev. induction a as [|x a IH]; intros prev; [reflexivity|].
  cbn [append Py.last_char]. apply IH.
Qed.

Lemma last_char_all (p : ascii -> bool) (kw : string) :
  kw <> "" -> all_chars p kw = true ->
  forall prev, exists c, Py.last_char prev kw = Some c /\ p c = true.
Proof.
  induction kw as [|x kw IH]; intros Hne Hall prev; [now elim Hne|].
  cbn [all_chars] in Hall. apply andb_true_iff in Hall as [Hx Hall].
  destruct kw as [|y kw].
  - now exists x.
  - change (Py.last_char prev (String x (String y kw)))
      with (Py.last_char (Some x) (String y kw)).
    apply IH; [discriminate | exact Hall].
Qed.

(** Both neighbours of a keyword made of word characters are non-word
    when a boundary holds on each of its sides. *)
Lemma boundaries_isolate_word (kw pre post : string) :
  kw <> "" -> all_chars Py.isword kw = true ->
  Py.boundary (Py.last_char None pre) (Py.first_char (kw ++ post)) = true ->
  Py.boundary (Py.last_char None (pre ++ kw)) (Py.first_char post) = true ->
  Py.isword_at (Py.last_char None pre) = false /\
  Py.isword_at (Py.first_char post) = false.
Proof.
  intros Hne Hall Hl Hr. split.
  - destruct kw as [|x kw]; [now elim Hne|].
    cbn [all_chars] in Hall. apply andb_true_iff in Hall as [Hx _].
    unfold Py.boundary in Hl. cbn in Hl. rewrite Hx in Hl.
    now destruct (Py.isword_at (Py.last_char None pre)).
  - rewrite last_char_append in Hr.
    destruct (last_char_all _ _ Hne Hall (Py.last_char None pre))
      as (c & Hc & Hw).
    unfold Py.boundary in Hr. rewrite Hc in Hr. cbn [Py.isword_at] in Hr.
    rewrite Hw in Hr.
    now destruct (Py.isword_at (Py.first_char post)).
Qed.

(** C6: a keyword of at most four characters matches only where it stands
    between two word boundaries of the lowered prompt; when the keyword is
    made of word characters, as every short keyword of the table is, the
    characters next to the occurrence are not word characters, so the
    keyword is not part of a longer token.  So "pr" does not match "pray",
    and as no other keyword matches either, the router returns nothing for
    the prompt "pray". *)
Theorem C6_short_keywords_match_at_word_boundaries :
  (forall keyword prompt_lower,
      String.length keyword <= 4 ->
      keyword_matches keyword prompt_lower = true ->
      exists pre post,
        prompt_lower = pre ++ keyword ++ post /\
        Py.boundary (Py.last_char None pre)
                    (Py.first_char (keyword ++ post)) = true /\
        Py.boundary (Py.last_char None (pre ++ keyword))
                    (Py.first_char post) = true /\
        (keyword <> "" -> all_chars Py.isword keyword = true ->
         Py.isword_at (Py.last_char None pre) = false /\
         Py.isword_at (Py.first_char post) = false)) /\
  (forall rule keyword,
      In rule DOC_MAPPINGS -> In keyword (keywords rule) ->
      String.length keyword <= 4 ->
      keyword <> "" /\ all_chars Py.isword keyword = true) /\
  keyword_matches "pr" (Py.lower "pray") = false /\
  find_matching_doc "pray" = None.
Proof.
  split; [|split; [|split; reflexivity]].
  - intros keyword pl Hlen H. unfold keyword_matches in H.
    apply Nat.leb_le in Hlen. rewrite Hlen in H.
    destruct (word_search_from_inv _ _ _ H) as (pre & post & E & Hl & Hr).
    exists pre, post. repeat split; try assumption;
      now apply (boundaries_isolate_word keyword pre post).
  - intros rule keyword Hrule Hkw Hlen.
    assert (Hall : forallb
              (fun r => forallb
                 (fun k => Nat.ltb 4 (String.length k)
                           || (nonempty k && all_chars Py.isword k))
                 (keywords r)) DOC_MAPPINGS = true) by reflexivity.
    rewrite forallb_forall in Hall. specialize (Hall _ Hrule).
    rewrite forallb_forall in Hall. specialize (Hall _ Hkw).
    apply orb_true_iff in Hall as [Hlong|Hshort].
    + apply Nat.ltb_lt in Hlong. lia.
    + apply andb_true_iff in Hshort as [Hne Hw]. split; [|exact Hw].
      now destruct keyword.
Qed.

Lemma C6_short_keywords_match_at_word_boundaries_witness :
  exists pre post,
    "open a pr now" = pre ++ "pr" ++ post /\
    Py.isword_at (Py.last_char None pre) = false /\
    Py.isword_at (Py.first_char post) = false.
Proof.
  destruct (proj1 C6_short_keywords_match_at_word_boundaries
                  "pr" "open a pr now") as (pre & post & E & _ & _ & H);
    [simpl; lia | reflexivity |].
  exists pre, post. split; [exact E|].
  apply H; [discriminate | reflexivity].
Defined.

(** ** Phase and focus *)










Section FieldScanFacts.

Variables (bold_label plain_label phrase : string).
Hypothesis bold_has_colon : Py.contains ":" bold_label = true.
Hypothesis plain_has_colon : Py.contains ":" plain_label = true.




End FieldScanFacts.





(** C3 (what the code returns): on the two-line document
    "**Phase:** Build" / "**Focus:** Auth" the code strips whitespace before
    it strips the asterisks, so the blank after the bold marker stays: the
    phase is " Build" and the focus " Auth", each with a leading blank. *)
Theorem C3_bold_labels_keep_leading_blank :
  extract_current_phase C3_document = Ok (Some " Build") /\
  extract_current_focus C3_document = Ok (Some " Auth").
Proof.
  split; reflexivity.
Qed.

(** ** Blockers *)

Lemma keeps_spec (b : string) :
  keeps b = true <-> b <> "" /\ Py.lower b <> "none".
Proof.
  unfold keeps. rewrite andb_true_iff, negb_true_iff, String.eqb_neq.
  destruct b; simpl; intuition congruence.
Qed.

(** Every value the loop adds comes from a bullet line that follows a
    trigger line (or the start, when the loop is entered in blocker mode)
    with no heading line up to and including the bullet. *)
Lemma blockers_loop_sound (lines : list string) :
  forall in_blockers acc b,
    In b (blockers_loop lines in_blockers acc) ->
    In b acc \/
    exists mid line post,
      lines = (mid ++ line :: post)%list /\ collected line b /\
      ((in_blockers = true /\
        forall x, In x (mid ++ [line])%list -> is_heading x = false) \/
       (exists pre t mid',
           mid = (pre ++ t :: mid')%list /\ is_trigger t = true /\
           forall x, In x (mid' ++ [line])%list -> is_heading x = false)).
Proof.
  induction lines as [|l lines IH]; intros in_b acc b H; cbn [blockers_loop] in H;
    [now left|].
  assert (Push : forall in_b' acc',
             In b (blockers_loop lines in_b' acc') ->
             (In b acc' -> In b acc \/
                exists mid line post,
                  (l :: lines) = (mid ++ line :: post)%list /\
                  collected line b /\
                  ((in_b = true /\
                    forall x, In x (mid ++ [line])%list -> is_heading x = false) \/
                   (exists pre t mid',
                       mid = (pre ++ t :: mid')%list /\ is_trigger t = true /\
                       forall x, In x (mid' ++ [line])%list ->
                                 is_heading x = false))) ->
             (in_b' = true ->
              is_trigger l = true \/ (in_b = true /\ is_heading l = false)) ->
             In b acc \/
             exists mid line post,
               (l :: lines) = (mid ++ line :: post)%list /\
               collected line b /\
               ((in_b = true /\
                 forall x, In x (mid ++ [line])%list -> is_heading x = false) \/
                (exists pre t mid',
                    mid = (pre ++ t :: mid')%list /\ is_trigger t = true /\
                    forall x, In x (mid' ++ [line])%list ->
                              is_heading x = false))).
  { intros in_b' acc' Hin Hacc Hopen.
    destruct (IH _ _ _ Hin) as [Ha|(mid & line & post & -> & Hc & Hsec)];
      [now apply Hacc|].
    right. exists (l :: mid), line, post. repeat split; try apply Hc.
    destruct Hsec as [[-> Hno]|(pre & t & mid' & -> & Ht & Hno)].
    - destruct (Hopen eq_refl) as [Ht|[-> Hl]].
      + right. now exists [], l, mid.
      + left. split; [reflexivity|]. intros x [<-|Hx]; auto.
    - right. now exists (l :: pre), t, mid'. }
  destruct (is_trigger l) eqn:Et.
  - apply (Push true acc H); [now left | now left].
  - destruct in_b.
    + destruct (is_heading l) eqn:Eh; [now left|].
      destruct (is_bullet l) eqn:Eb.
      * destruct (keeps (bullet_text l)) eqn:Ek.
        -- apply (Push true _ H); [|now right].
           intros Hin. apply in_app_or in Hin as [Hin|[<-|[]]]; [now left|].
           right. exists [], l, lines. repeat split; auto.
           ++ now apply keeps_spec.
           ++ now apply keeps_spec.
           ++ left. split; [reflexivity|]. now intros x [<-|[]].
        -- apply (Push true acc H); [now left | now right].
      * apply (Push true acc H); [now left | now right].
    + apply (Push false acc H); [now left | discriminate].
Qed.

Lemma blockers_loop_before_trigger (pre rest acc : list string) :
  (forall x, In x pre -> is_trigger x = false) ->
  blockers_loop (pre ++ rest)%list false acc = blockers_loop rest false acc.
Proof.
  induction pre as [|x pre IH]; intros H; [reflexivity|].
  cbn [app blockers_loop]. rewrite (H x (or_introl eq_refl)).
  apply IH. intros y Hy. apply H. now right.
Qed.

Lemma blockers_loop_section (section rest : list string) :
  forall acc,
    (forall x, In x section -> is_trigger x = false /\ is_heading x = false) ->
    blockers_loop (section ++ rest)%list true acc
    = blockers_loop rest true (acc ++ section_blockers section)%list.
Proof.
  induction section as [|x section IH]; intros acc H.
  - cbn. now rewrite app_nil_r.
  - destruct (H x (or_introl eq_refl)) as [Ht Hh].
    assert (H' : forall y, In y section ->
                           is_trigger y = false /\ is_heading y = false)
      by (intros y Hy; apply H; now right).
    cbn [app blockers_loop]. rewrite Ht, Hh.
    unfold section_blockers. cbn [filter].
    destruct (is_bullet x); cbn [map filter].
    + destruct (keeps (bullet_text x)).
      * rewrite (IH _ H'). unfold section_blockers.
        now rewrite <- app_assoc.
      * now rewrite (IH _ H').
    + now rewrite (IH _ H').
Qed.

(** C7: every blocker returned is the text of a bullet line, stripped of
    its bullet markers and surrounding whitespace, non-empty and different
    from "none" in any casing, and that bullet stands after a trigger line
    (one containing "blocker" and "#") with no heading line between the
    trigger and the bullet.  For a section of lines that are neither
    trigger nor heading, opened by the first trigger line and closed by a
    heading or by the end of the document, the result is exactly the
    section's bullets so cleaned and filtered.  Bullets "- API rate limits"
    and "- none" followed by a new heading give ["API rate limits"]; a
    section whose only bullet is "None" gives the empty list. *)
Theorem C7_blockers_between_trigger_and_next_heading :
  (forall content b,
      In b (extract_blockers content) ->
      exists pre t mid line post,
        Py.split LF content = (pre ++ t :: mid ++ line :: post)%list /\
        is_trigger t = true /\
        (forall x, In x (mid ++ [line])%list -> is_heading x = false) /\
        collected line b) /\
  (forall content pre t section rest,
      Py.split LF content = (pre ++ t :: section ++ rest)%list ->
      (forall x, In x pre -> is_trigger x = false) ->
      is_trigger t = true ->
      (forall x, In x section ->
                 is_trigger x = false /\ is_heading x = false) ->
      (rest = [] \/
       exists h rest', rest = h :: rest' /\
                       is_trigger h = false /\ is_heading h = true) ->
      extract_blockers content = section_blockers section) /\
  extract_blockers C7_document = ["API rate limits"] /\
  extract_blockers C7_document_none = [].
Proof.
  split; [|split; [|split; reflexivity]].
  - intros content b H. unfold extract_blockers in H.
    destruct (blockers_loop_sound _ _ _ _ H)
      as [[]|(mid & line & post & E & Hc & [[Hf _]|Hsec])]; [discriminate|].
    destruct Hsec as (pre & t & mid' & -> & Ht & Hno).
    exists pre, t, mid', line, post. rewrite E, <- app_assoc.
    split; [reflexivity | auto].
  - intros content pre t section rest E Hpre Ht Hsec Hend.
    unfold extract_blockers. rewrite E.
    rewrite (blockers_loop_before_trigger _ _ _ Hpre).
    cbn [blockers_loop]. rewrite Ht.
    rewrite (blockers_loop_section _ _ _ Hsec). cbn [app].
    destruct Hend as [->|(h & rest' & -> & Hht & Hhh)]; [reflexivity|].
    cbn [blockers_loop]. now rewrite Hht, Hhh.
Qed.

Lemma C7_blockers_between_trigger_and_next_heading_witness :
  exists pre t mid line post,
    Py.split LF C7_document = (pre ++ t :: mid ++ line :: post)%list /\
    is_trigger t = true /\
    (forall x, In x (mid ++ [line])%list -> is_heading x = false) /\
    collected line "API rate limits".
Proof.
  apply (proj1 C7_blockers_between_trigger_and_next_heading C7_document).
  vm_compute. now left.
Defined.

(** ** The latest session log *)

Lemma qualifying_log_filter (fs : FileSystem) (dir name : string) :
  In name (filter not_index (glob_md fs dir)) <-> qualifying_log fs dir name.
Proof.
  unfold qualifying_log, glob_md, not_index.
  rewrite !filter_In, negb_true_iff, String.eqb_neq. tauto.
Qed.

Lemma insert_desc_In (x y : string) (l : list string) :
  In y (insert_desc x l) <-> y = x \/ In y l.
Proof.
  induction l as [|z l IH]; cbn [insert_desc].
  - simpl. intuition.
  - destruct (String.ltb x z); simpl; rewrite ?IH; intuition.
Qed.

Lemma sorted_reverse_In (y : string) (l : list string) :
  In y (sorted_reverse l) <-> In y l.
Proof.
  induction l as [|x l IH]; cbn [sorted_reverse]; [tauto|].
  rewrite insert_desc_In, IH. simpl. intuition.
Qed.

Lemma leb_refl (s : string) : String.leb s s = true.
Proof.
  destruct (String.leb_total s s); assumption.
Qed.

Lemma leb_trans (a b c : string) :
  String.leb a b = true -> String.leb b c = true -> String.leb a c = true.
Proof.
  unfold String.leb. intros Hab Hbc.
  destruct (String.compare a c) eqn:Eac; try reflexivity.
  exfalso.
  assert (Hca : String_as_OT.lt c a).
  { apply String_as_OT.cmp_lt. unfold String_as_OT.cmp.
    rewrite String.compare_antisym, Eac. reflexivity. }
  destruct (String.compare a b) eqn:Eab; try discriminate.
  - apply String.compare_eq_iff in Eab as ->.
    apply String_as_OT.cmp_lt in Hca. unfold String_as_OT.cmp in Hca.
    rewrite String.compare_antisym, Hca in Hbc. discriminate.
  - apply String_as_OT.cmp_lt in Eab.
    pose proof (String_as_OT.lt_trans _ _ _ Hca Eab) as Hcb.
    apply String_as_OT.cmp_lt in Hcb. unfold String_as_OT.cmp in Hcb.
    rewrite String.compare_antisym, Hcb in Hbc. discriminate.
Qed.

Lemma not_ltb_leb (x y : string) :
  String.ltb x y = false -> String.leb y x = true.
Proof.
  unfold String.ltb, String.leb. rewrite (String.compare_antisym y x).
  now destruct (String.compare x y).
Qed.

Lemma ltb_leb (x y : string) :
  String.ltb x y = true -> String.leb x y = true.
Proof.
  unfold String.ltb, String.leb. now destruct (String.compare x y).
Qed.

(** The head of a descending sort dominates the whole list. *)
Lemma insert_desc_head (x : string) (l : list string) :
  (forall h t, l = h :: t -> forall y, In y l -> String.leb y h = true) ->
  forall h t, insert_desc x l = h :: t ->
              forall y, In y (x :: l) -> String.leb y h = true.
Proof.
  destruct l as [|z l]; cbn [insert_desc]; intros Hl h t E y Hy.
  - injection E as <- <-. destruct Hy as [<-|[]]. apply leb_refl.
  - specialize (Hl z l eq_refl).
    destruct (String.ltb x z) eqn:Exz; injection E as <- <-.
    + destruct Hy as [<-|Hy]; [now apply ltb_leb | now apply Hl].
    + destruct Hy as [<-|Hy]; [apply leb_refl|].
      apply leb_trans with (b := z); [now apply Hl | now apply not_ltb_leb].
Qed.

Lemma sorted_reverse_head (l : list string) :
  forall h t, sorted_reverse l = h :: t ->
              forall y, In y l -> String.leb y h = true.
Proof.
  induction l as [|x l IH]; cbn [sorted_reverse]; intros h t E y Hy;
    [destruct Hy|].
  apply (insert_desc_head x (sorted_reverse l)) with (t := t); [|exact E|].
  - intros h' t' E' y' Hy'. apply (IH h' t' E'). now apply sorted_reverse_In.
  - destruct Hy as [<-|Hy]; [now left | right; now apply sorted_reverse_In].
Qed.

Lemma session_files_latest (fs : FileSystem) (dir name : string) :
  latest_log fs dir name ->
  exists rest, session_files fs dir = name :: rest.
Proof.
  intros [Hq Hmax]. unfold session_files.
  destruct (sorted_reverse (filter not_index (glob_md fs dir)))
    as [|h t] eqn:E.
  - apply qualifying_log_filter, sorted_reverse_In in Hq.
    rewrite E in Hq. destruct Hq.
  - exists t. f_equal. apply String.leb_antisym.
    + apply Hmax. apply qualifying_log_filter, sorted_reverse_In.
      rewrite E. now left.
    + apply (sorted_reverse_head _ h t E). now apply qualifying_log_filter.
Qed.

Lemma session_files_head_latest (fs : FileSystem) (dir name : string)
      (rest : list string) :
  session_files fs dir = name :: rest -> latest_log fs dir name.
Proof.
  unfold session_files. intros E. split.
  - apply qualifying_log_filter, sorted_reverse_In. rewrite E. now left.
  - intros other Ho. apply (sorted_reverse_head _ name rest E).
    now apply qualifying_log_filter.
Qed.

Lemma session_files_none (fs : FileSystem) (dir : string) :
  (forall name, ~ qualifying_log fs dir name) -> session_files fs dir = [].
Proof.
  intros H. destruct (session_files fs dir) as [|h t] eqn:E; [reflexivity|].
  destruct (H h). now apply (session_files_head_latest fs dir h t).
Qed.

Lemma meaningful_spec (line : string) :
  meaningful line = true <-> summary_candidate line.
Proof.
  unfold meaningful, summary_candidate.
  rewrite !andb_true_iff, negb_true_iff, Nat.ltb_lt.
  destruct line; simpl; intuition congruence.
Qed.

Lemma take_first_chars (n : nat) (line : string) :
  n <= String.length line -> first_chars n line (Py.take n line).
Proof.
  unfold first_chars, Py.take. revert line.
  induction n as [|n IH]; intros line Hn.
  - destruct line; simpl; split; eauto.
  - destruct line as [|c line]; simpl in Hn; [lia|].
    destruct (IH line) as [Hlen (rest & E)]; [lia|].
    cbn [substring String.length]. split; [now rewrite Hlen|].
    exists rest. cbn [append]. now rewrite <- E.
Qed.

Lemma summary_of_spec (line : string) :
  (String.length line <= 100 -> summary_of line = line) /\
  (100 < String.length line ->
   exists p, first_chars 100 line p /\ summary_of line = p ++ "...").
Proof.
  unfold summary_of. split; intros H.
  - apply Nat.ltb_ge in H. now rewrite H.
  - exists (Py.take 100 line). split; [apply take_first_chars; lia|].
    apply Nat.ltb_lt in H. now rewrite H.
Qed.

Lemma first_summary_rule (lines : list string) :
  summary_rule lines (first_summary lines).
Proof.
  split.
  - induction lines as [|x lines IH]; intros H; [reflexivity|].
    cbn [first_summary]. destruct (meaningful (Py.strip x)) eqn:E.
    + apply meaningful_spec in E. now destruct (H x (or_introl eq_refl)).
    + apply IH. intros y Hy. apply H. now right.
  - intros before raw after -> Hbefore Hraw.
    induction before as [|x before IH]; cbn [app first_summary].
    + apply meaningful_spec in Hraw. rewrite Hraw.
      destruct (summary_of_spec (Py.strip raw)) as [Hs Hl]. split.
      * intros H. now rewrite Hs.
      * intros H. destruct (Hl H) as (p & Hp & ->). now exists p.
    + destruct (meaningful (Py.strip x)) eqn:E.
      * apply meaningful_spec in E. now destruct (Hbefore x (or_introl eq_refl)).
      * apply IH. intros y Hy. apply Hbefore. now right.
Qed.

Lemma summary_of_content_text (text : string) :
  summary_of_content (Some text) = first_summary (Py.split LF text).
Proof.
  now destruct text.
Qed.

Lemma get_latest_session_absent (fs : FileSystem) (dir : string) :
  (forall name, ~ qualifying_log fs dir name) ->
  get_latest_session fs dir = Ok (None, None).
Proof.
  intros H. unfold get_latest_session.
  rewrite (session_files_none _ _ H). now destruct (path_exists fs dir).
Qed.

Lemma get_latest_session_latest (fs : FileSystem) (dir name : string) :
  path_exists fs dir = true -> latest_log fs dir name ->
  get_latest_session fs dir =
  (content <- read_file_safely fs (path_join dir name) ;;
   Ok (Some name, summary_of_content content)).
Proof.
  intros He Hl. unfold get_latest_session. rewrite He. cbn [negb].
  now destruct (session_files_latest _ _ _ Hl) as (rest & ->).
Qed.





(** C8: a missing directory, or one without a "*.md" entry other than
    "_index.md", gives no record.  Otherwise the locator names the entry
    that is greatest in lexicographic order among the "*.md" entries other
    than "_index.md"; with its text read, the summary is the first line
    that, trimmed, is non-empty, is not a heading and is longer than 10
    characters: as it stands when it has at most 100 characters, its first
    100 characters followed by "..." when it has more; without such a line
    the summary is absent. *)
Theorem C8_latest_log_and_its_summary (fs : FileSystem) (dir : string) :
  (path_exists fs dir = false ->
   get_latest_session fs dir = Ok (None, None)) /\
  ((forall name, ~ qualifying_log fs dir name) ->
   get_latest_session fs dir = Ok (None, None)) /\
  (forall name text,
      path_exists fs dir = true ->
      latest_log fs dir name ->
      read_text fs (path_join dir name) = Ok text ->
      exists summary,
        get_latest_session fs dir = Ok (Some name, summary) /\
        summary_rule (Py.split LF text) summary).
Proof.
  split; [|split].
  - intros H. unfold get_latest_session. now rewrite H.
  - apply get_latest_session_absent.
  - intros name text He Hl Hr.
    exists (first_summary (Py.split LF text)). split.
    + rewrite (get_latest_session_latest _ _ _ He Hl).
      unfold read_file_safely. rewrite Hr. cbn [bind].
      now rewrite summary_of_content_text.
    + apply first_summary_rule.
Qed.

Lemma fs_logs_latest :
  latest_log fs_logs (sessions_path "/project") "2024-03-10.md".
Proof.
  split.
  - repeat split; [cbn; tauto | discriminate].
  - intros other (Hin & Hmd & Hni). cbn in Hin.
    destruct Hin as [<-|[<-|[<-|[<-|[]]]]]; try reflexivity;
      [now elim Hni | discriminate].
Qed.

Lemma C8_latest_log_and_its_summary_witness :
  get_latest_session fs_logs (sessions_path "/project")
  = Ok (Some "2024-03-10.md", Some "Fixed the login flow today.").
Proof.
  destruct (C8_latest_log_and_its_summary fs_logs (sessions_path "/project"))
    as (_ & _ & H).
  destruct (H "2024-03-10.md" log_text eq_refl fs_logs_latest eq_refl)
    as (summary & -> & _ & Hrule).
  destruct (Hrule ["# Session 2024-03-10"; ""]
                  "  Fixed the login flow today." [""] eq_refl)
    as [Hshort _].
  - intros x [<-|[<-|[]]] (Hne & Hhead & Hlen); vm_compute in *;
      [discriminate | lia].
  - repeat split; vm_compute; [discriminate | lia].
  - rewrite Hshort; [reflexivity | vm_compute; lia].
Defined.




(** C10: the locator never returns a summary without a file name.  When no
    entry qualifies both are absent, and when the chosen log reads as
    empty text its name is returned with the summary absent. *)
Theorem C10_summary_only_with_file_name :
  (forall fs dir name summary,
      get_latest_session fs dir = Ok (name, summary) ->
      summary <> None -> name <> None) /\
  (forall fs dir,
      (forall name, ~ qualifying_log fs dir name) ->
      get_latest_session fs dir = Ok (None, None)) /\
  (forall fs dir name,
      path_exists fs dir = true -> latest_log fs dir name ->
      read_text fs (path_join dir name) = Ok "" ->
      get_latest_session fs dir = Ok (Some name, None)).
Proof.
  split; [|split].
  - intros fs dir name summary. unfold get_latest_session.
    destruct (negb (path_exists fs dir)); [now intros [= <- <-]|].
    destruct (session_files fs dir) as [|latest rest];
      [now intros [= <- <-]|].
    destruct (read_file_safely fs (path_join dir latest)); cbn [bind];
      [|discriminate].
    now intros [= <- <-].
  - intros fs dir. apply get_latest_session_absent.
  - intros fs dir name He Hl Hr.
    rewrite (get_latest_session_latest _ _ _ He Hl).
    unfold read_file_safely. now rewrite Hr.
Qed.

Lemma C10_summary_only_with_file_name_witness :
  get_latest_session fs_logs (sessions_path "/project")
  = Ok (Some "2024-03-10.md", Some "Fixed the login flow today.") /\
  Some "2024-03-10.md" <> None.
Proof.
  split; [reflexivity|].
  apply (proj1 C10_summary_only_with_file_name fs_logs
               (sessions_path "/project") (Some "2024-03-10.md")
               (Some "Fixed the login flow today.") eq_refl).
  discriminate.
Defined.

(** ** The context message *)

Lemma message_parts_bare (phase focus latest summary : option string) :
  Py.truthy phase = false -> Py.truthy focus = false ->
  Py.truthy latest = false ->
  message_parts phase focus [] latest summary = [intro_line; ""; closing_line].
Proof.
  intros Hp Hf Hl. unfold message_parts, when_present, session_part.
  destruct phase as [[|? ?]|]; try discriminate;
    destruct focus as [[|? ?]|]; try discriminate;
    destruct latest as [[|? ?]|]; try discriminate; reflexivity.
Qed.

(** C4 (as the code has it): in a detected project with phase, focus and
    session name absent or empty and no blockers, the message is made of
    three lines: the introductory line, one empty separator line and the
    closing instructional line.  No line is rendered for an absent
    field. *)
Theorem C4_bare_message_is_intro_separator_closing
        (fs : FileSystem) (project_root : string)
        (state_content phase focus latest summary : option string) :
  path_exists fs (marker_path project_root) = true ->
  read_file_safely fs (state_path project_root) = Ok state_content ->
  extract_state state_content = Ok (phase, focus, []) ->
  get_latest_session fs (sessions_path project_root) = Ok (latest, summary) ->
  Py.truthy phase = false -> Py.truthy focus = false ->
  Py.truthy latest = false ->
  session_start_main fs project_root
  = Ok (mkOutput (Some (intro_line ++ NL ++ "" ++ NL ++ closing_line))) /\
  Py.split LF (intro_line ++ NL ++ "" ++ NL ++ closing_line)
  = [intro_line; ""; closing_line].
Proof.
  intros Hm Hr He Hs Hp Hf Hl. split; [|reflexivity].
  unfold session_start_main. rewrite Hm. unfold build_context_message.
  fold (state_path project_root). fold (sessions_path project_root).
  rewrite Hr. cbn [bind]. rewrite He. cbn [bind]. rewrite Hs. cbn [bind].
  now rewrite (message_parts_bare _ _ _ _ Hp Hf Hl).
Qed.

Lemma C4_bare_message_is_intro_separator_closing_witness :
  session_start_main fs_bare "/project"
  = Ok (mkOutput (Some (intro_line ++ NL ++ "" ++ NL ++ closing_line))).
Proof.
  apply (C4_bare_message_is_intro_separator_closing
           fs_bare "/project" None None None None None);
    reflexivity.
Defined.

(** C4 as stated fails: for the bare project the message has a third,
    empty line between the introductory and the closing line. *)
Lemma C4_counterexample :
  exists text,
    session_start_main fs_bare "/project" = Ok (mkOutput (Some text)) /\
    Py.split LF text = [intro_line; ""; closing_line] /\
    In "" (Py.split LF text) /\
    text <> intro_line ++ NL ++ closing_line.
Proof.
  exists (intro_line ++ NL ++ "" ++ NL ++ closing_line).
  repeat split; [cbn; tauto | discriminate].
Qed.
